(** * chess_player: the chess position model of [chess_models.py]

    A shallow embedding of the pydantic models [Position], [Piece],
    [PieceMove] and [Chessboard], followed by the properties of their
    construction, notation and text rendering.

    Python values are modelled as follows.
    - [int] is [Z].
    - [str] is a Rocq [string] holding the UTF-8 encoding of the text; every
      string this program builds is plain ASCII, one [ascii] per character.
    - a raised exception is the [Raise] branch of [result]; statements are
      sequenced with [x <- e ;; k], which stops at the first [Raise].
    - a [list] is a Rocq [list]; subscripting follows Python, negative
      indices included, and raises [IndexError] out of range. *)

From Stdlib Require Import ZArith List String Ascii Bool Lia DecimalString.
Import ListNotations.

Open Scope list_scope.
Open Scope string_scope.
Open Scope Z_scope.

(* ================================================================== *)
(** * The Python runtime the models rely on *)
(* ================================================================== *)

Module Py.

(** pydantic reports a violated [Field] bound per field. *)
Inductive constraint : Type :=
| greater_than_equal (bound : Z)
| less_than_equal (bound : Z).

Inductive exception : Type :=
| ValidationError (errors : list (string * constraint))
| ValueError (msg : string)
| IndexError (msg : string)
| KeyError.

Inductive result (A : Type) : Type :=
| Ok (a : A)
| Raise (e : exception).

Arguments Ok {A} a.
Arguments Raise {A} e.

Definition bind {A B : Type} (m : result A) (k : A -> result B) : result B :=
  match m with
  | Ok a => k a
  | Raise e => Raise e
  end.

(** A [for] loop whose body updates the state [s] and may raise. *)
Fixpoint for_ {A S : Type} (xs : list A) (body : S -> A -> result S) (s : S)
  : result S :=
  match xs with
  | [] => Ok s
  | x :: xs' => bind (body s x) (for_ xs' body)
  end.

(** ** Integers and characters *)

(** [str(i)] and [f"{i}"] for an [int]: decimal digits, [-] when negative. *)
Definition str (i : Z) : string := NilZero.string_of_int (Z.to_int i).

Definition ord (c : ascii) : Z := Z.of_N (N_of_ascii c).

Definition byte (n : Z) : ascii := ascii_of_N (Z.to_N n).

Definition utf8 (i : Z) : string :=
  if i <? 0x80 then
    String (byte i) ""
  else if i <? 0x800 then
    String (byte (0xC0 + i / 64)) (String (byte (0x80 + i mod 64)) "")
  else if i <? 0x10000 then
    String (byte (0xE0 + i / 4096))
      (String (byte (0x80 + (i / 64) mod 64))
         (String (byte (0x80 + i mod 64)) ""))
  else
    String (byte (0xF0 + i / 262144))
      (String (byte (0x80 + (i / 4096) mod 64))
         (String (byte (0x80 + (i / 64) mod 64))
            (String (byte (0x80 + i mod 64)) ""))).

(** [chr(i)]: the one-character string of code point [i]. *)
Definition chr (i : Z) : result string :=
  if (i <? 0) || (0x10FFFF <? i)
  then Raise (ValueError "chr() arg not in range(0x110000)")
  else Ok (utf8 i).

(** ** Strings *)

Definition upper_char (c : ascii) : ascii :=
  let n := N_of_ascii c in
  if ((97 <=? n) && (n <=? 122))%N then ascii_of_N (n - 32) else c.

Definition lower_char (c : ascii) : ascii :=
  let n := N_of_ascii c in
  if ((65 <=? n) && (n <=? 90))%N then ascii_of_N (n + 32) else c.

Fixpoint map_string (f : ascii -> ascii) (s : string) : string :=
  match s with
  | EmptyString => EmptyString
  | String c s' => String (f c) (map_string f s')
  end.

(** [s.upper()] and [s.lower()] on ASCII text (the receivers in this
    program are the one-letter values of [piece_map]). *)
Definition upper (s : string) : string := map_string upper_char s.
Definition lower (s : string) : string := map_string lower_char s.

(** [sep.join(parts)]. *)
Definition join (sep : string) (parts : list string) : string :=
  String.concat sep parts.

(** ** Lists *)

Definition len {A : Type} (l : list A) : Z := Z.of_nat (List.length l).

Definition range (n : Z) : list Z := map Z.of_nat (seq 0 (Z.to_nat n)).

Definition reversed {A : Type} (l : list A) : list A := rev l.

Definition enumerate {A : Type} (l : list A) : list (Z * A) :=
  combine (range (len l)) l.

(** [l * n]: [n] copies of [l] end to end. *)
Definition mul {A : Type} (l : list A) (n : Z) : list A :=
  List.concat (repeat l (Z.to_nat n)).

(** The position a subscript [i] denotes in a list of length [n]. *)
Definition index (n : Z) (i : Z) : option nat :=
  let j := if i <? 0 then i + n else i in
  if (j <? 0) || (n <=? j) then None else Some (Z.to_nat j).

(** [l[i]]. *)
Definition getitem {A : Type} (l : list A) (i : Z) : result A :=
  match index (len l) i with
  | None => Raise (IndexError "list index out of range")
  | Some j =>
      match nth_error l j with
      | Some x => Ok x
      | None => Raise (IndexError "list index out of range")
      end
  end.

Fixpoint replace {A : Type} (l : list A) (j : nat) (x : A) : list A :=
  match l, j with
  | [], _ => []
  | _ :: l', O => x :: l'
  | y :: l', S j' => y :: replace l' j' x
  end.

(** [l[i] = x], returning the updated list. *)
Definition setitem {A : Type} (l : list A) (i : Z) (x : A) : result (list A) :=
  match index (len l) i with
  | None => Raise (IndexError "list assignment index out of range")
  | Some j => Ok (replace l j x)
  end.

(** [d[k]] for a dict given by its items, in the order they were written. *)
Fixpoint dict_getitem {K V : Type} (eqb : K -> K -> bool)
         (d : list (K * V)) (k : K) : result V :=
  match d with
  | [] => Raise KeyError
  | (k', v) :: d' => if eqb k' k then Ok v else dict_getitem eqb d' k
  end.

End Py.

Import Py.

Notation "x <- e ;; k" := (bind e (fun x => k))
  (at level 61, e at next level, right associativity).

(* ================================================================== *)
(** * class Position *)
(* ================================================================== *)

Module Position.

Record t : Type := { row : Z; col : Z }.

(** [Field(..., ge=lo, le=hi)] checked on the field [name]. *)
Definition Field (name : string) (lo hi : Z) (v : Z)
  : list (string * constraint) :=
  if v <? lo then [(name, greater_than_equal lo)]
  else if hi <? v then [(name, less_than_equal hi)]
  else [].

(** [Position(row=..., col=...)]: pydantic checks every field and raises
    one [ValidationError] listing all the violations. *)
Definition new (row col : Z) : result t :=
  match (Field "row" 0 7 row ++ Field "col" 0 7 col)%list with
  | [] => Ok {| row := row; col := col |}
  | errors => Raise (ValidationError errors)
  end.

Definition to_tuple (self : t) : Z * Z := (row self, col self).

Definition to_algebraic (self : t) : result string :=
  letter <- chr (col self + ord "a") ;;
  Ok (letter ++ str (8 - row self)).

End Position.

(* ================================================================== *)
(** * class Piece *)
(* ================================================================== *)

Module Piece.

Inductive Color : Type := white | black.

Inductive PieceType : Type := pawn | rook | knight | bishop | queen | king.

Record t : Type := { color : Color; type : PieceType }.

Definition Color_eqb (a b : Color) : bool :=
  match a, b with
  | white, white | black, black => true
  | _, _ => false
  end.

Definition PieceType_eqb (a b : PieceType) : bool :=
  match a, b with
  | pawn, pawn | rook, rook | knight, knight
  | bishop, bishop | queen, queen | king, king => true
  | _, _ => false
  end.

Definition piece_map : list (PieceType * string) :=
  [ (pawn, "P");
    (rook, "R");
    (knight, "N");
    (bishop, "B");
    (queen, "Q");
    (king, "K") ].

Definition __str__ (self : t) : result string :=
  symbol <- dict_getitem PieceType_eqb piece_map (type self) ;;
  Ok (if Color_eqb (color self) white then lower symbol else symbol).

End Piece.

(* ================================================================== *)
(** * class PieceMove *)
(* ================================================================== *)

Module PieceMove.

Record t : Type :=
  { piece : Piece.t;
    from_position : Position.t;
    to_position : Position.t }.

Definition __str__ (self : t) : result string :=
  s <- Piece.__str__ (piece self) ;;
  let piece_str := upper s in
  let piece_str :=
    if Piece.PieceType_eqb (Piece.type (piece self)) Piece.pawn
    then "" else piece_str in
  src <- Position.to_algebraic (from_position self) ;;
  dst <- Position.to_algebraic (to_position self) ;;
  Ok (piece_str ++ src ++ dst).

End PieceMove.

(* ================================================================== *)
(** * class Chessboard *)
(* ================================================================== *)

Module Chessboard.

Definition grid : Type := list (list (option Piece.t)).

Record t : Type := { board : grid }.

(** The method is defined on the class but carries no [@validator]
    decorator, so pydantic never calls it. *)
Definition validate_board_dimensions (v : grid) : result grid :=
  if negb (len v =? 8) || existsb (fun row => negb (len row =? 8)) v
  then Raise (ValueError "Chessboard must be 8x8")
  else Ok v.

(** [Chessboard(board=...)]: the only check pydantic runs is that of the
    field's type, which every [grid] passes. *)
Definition new (board : grid) : result t := Ok {| board := board |}.

Definition get_piece (self : t) (position : Position.t)
  : result (option Piece.t) :=
  r <- getitem (board self) (Position.row position) ;;
  getitem r (Position.col position).

(** The text of one board row, [f'{8-i} | {' '.join(display_row)} |']. *)
Definition display_line (i : Z) (row : list (option Piece.t))
  : result string :=
  display_row <-
    for_ row
      (fun display_row piece =>
         match piece with
         | None => Ok (display_row ++ ["."])%list
         | Some p => s <- Piece.__str__ p ;; Ok (display_row ++ [s])%list
         end)
      [] ;;
  Ok (str (8 - i) ++ " | " ++ join " " display_row ++ " |").

(** The list [rows] that [display] joins. *)
Definition display_rows (self : t) : result (list string) :=
  let rows := [] in
  let rows := (rows ++ ["  A B C D E F G H"])%list in
  let rows := (rows ++ [" +-----------------+"])%list in
  rows <-
    for_ (enumerate (reversed (board self)))
      (fun rows '(i, row) =>
         line <- display_line i row ;;
         Ok (rows ++ [line])%list)
      rows ;;
  let rows := (rows ++ [" +-----------------+"])%list in
  let rows := (rows ++ ["  A B C D E F G H"])%list in
  Ok rows.

Definition display (self : t) : result string :=
  rows <- display_rows self ;;
  Ok (join (String "010" "") rows).

Definition create_initial_board : result t :=
  let board : grid :=
    map (fun _ => map (fun _ => None) (range 8)) (range 8) in
  board <- setitem board 0
    [ Some {| Piece.color := Piece.black; Piece.type := Piece.rook |};
      Some {| Piece.color := Piece.black; Piece.type := Piece.knight |};
      Some {| Piece.color := Piece.black; Piece.type := Piece.bishop |};
      Some {| Piece.color := Piece.black; Piece.type := Piece.queen |};
      Some {| Piece.color := Piece.black; Piece.type := Piece.king |};
      Some {| Piece.color := Piece.black; Piece.type := Piece.bishop |};
      Some {| Piece.color := Piece.black; Piece.type := Piece.knight |};
      Some {| Piece.color := Piece.black; Piece.type := Piece.rook |} ] ;;
  board <- setitem board 1
    (mul [Some {| Piece.color := Piece.black; Piece.type := Piece.pawn |}] 8) ;;
  board <- setitem board 6
    (mul [Some {| Piece.color := Piece.white; Piece.type := Piece.pawn |}] 8) ;;
  board <- setitem board 7
    [ Some {| Piece.color := Piece.white; Piece.type := Piece.rook |};
      Some {| Piece.color := Piece.white; Piece.type := Piece.knight |};
      Some {| Piece.color := Piece.white; Piece.type := Piece.bishop |};
      Some {| Piece.color := Piece.white; Piece.type := Piece.queen |};
      Some {| Piece.color := Piece.white; Piece.type := Piece.king |};
      Some {| Piece.color := Piece.white; Piece.type := Piece.bishop |};
      Some {| Piece.color := Piece.white; Piece.type := Piece.knight |};
      Some {| Piece.color := Piece.white; Piece.type := Piece.rook |} ] ;;
  new board.

End Chessboard.

(* ================================================================== *)
(** * Vocabulary of the specification *)
(* ================================================================== *)

Module Spec.

(** A coordinate of the 8x8 grid. *)
Definition coordinate (x : Z) : Prop := 0 <= x <= 7.

(** A validly constructed square. *)
Definition valid_square (p : Position.t) : Prop :=
  coordinate (Position.row p) /\ coordinate (Position.col p).

(** A grid of exactly 8 rows of 8 cells. *)
Definition is_8x8 (g : Chessboard.grid) : Prop :=
  List.length g = 8%nat /\ Forall (fun r => List.length r = 8%nat) g.

(** The specification calls [RangeError] what pydantic raises for a
    coordinate outside its [ge]/[le] bounds: a [ValidationError] with at
    least one entry, each naming [row] or [col] and the bound missed. *)
Definition RangeError (e : exception) : Prop :=
  exists errors,
    e = ValidationError errors /\
    errors <> [] /\
    Forall (fun '(field, c) =>
              (field = "row" \/ field = "col") /\
              (c = greater_than_equal 0 \/ c = less_than_equal 7))
           errors.

(** The specification calls [DimensionError] the error of
    [validate_board_dimensions]. *)
Definition DimensionError (e : exception) : Prop :=
  e = ValueError "Chessboard must be 8x8".

(** Column 0 is file a, column 7 is file h. *)
Definition column_letter (col : Z) : ascii :=
  nth (Z.to_nat col) ["a"; "b"; "c"; "d"; "e"; "f"; "g"; "h"]%char " "%char.

Definition digit (d : Z) : ascii :=
  nth (Z.to_nat d)
      ["0"; "1"; "2"; "3"; "4"; "5"; "6"; "7"; "8"; "9"]%char " "%char.

(** The algebraic name of the square at ([row], [col]). *)
Definition algebraic (row col : Z) : string :=
  String (column_letter col) (String (digit (8 - row)) "").

(** The pattern [[a-h][1-8]]. *)
Definition is_square_name (s : string) : bool :=
  match s with
  | String f (String r EmptyString) =>
      ((97 <=? N_of_ascii f) && (N_of_ascii f <=? 104) &&
       (49 <=? N_of_ascii r) && (N_of_ascii r <=? 56))%N
  | _ => false
  end.

(** The upper-case letter of a kind of piece. *)
Definition kind_letter (k : Piece.PieceType) : string :=
  match k with
  | Piece.pawn => "P"
  | Piece.rook => "R"
  | Piece.knight => "N"
  | Piece.bishop => "B"
  | Piece.queen => "Q"
  | Piece.king => "K"
  end.

(** The symbol of a piece: upper case for black, lower case for white. *)
Definition symbol (p : Piece.t) : string :=
  match Piece.color p, Piece.type p with
  | Piece.black, k => kind_letter k
  | Piece.white, Piece.pawn => "p"
  | Piece.white, Piece.rook => "r"
  | Piece.white, Piece.knight => "n"
  | Piece.white, Piece.bishop => "b"
  | Piece.white, Piece.queen => "q"
  | Piece.white, Piece.king => "k"
  end.

(** The letter that opens a move: none for a pawn. *)
Definition move_letter (p : Piece.t) : string :=
  match Piece.type p with
  | Piece.pawn => ""
  | k => kind_letter k
  end.

(** What a cell shows on the diagram. *)
Definition cell_symbol (c : option Piece.t) : string :=
  match c with
  | None => "."
  | Some p => symbol p
  end.

(** A body line of the diagram: the rank digit, [" | "], the cells
    separated by spaces, [" |"]. *)
Definition body_line (rank : Z) (cells : list (option Piece.t)) : string :=
  String (digit rank) " | " ++ join " " (map cell_symbol cells) ++ " |".

(** The line appended for the [i]-th row the rendering loop meets. *)
Definition loop_line (ir : Z * list (option Piece.t)) : string :=
  str (8 - fst ir) ++ " | " ++ join " " (map cell_symbol (snd ir)) ++ " |".

(** The lines of a text: what stands between its line feeds. *)
Fixpoint lines (s : string) : list string :=
  match s with
  | EmptyString => [EmptyString]
  | String c s' =>
      if Ascii.eqb c "010" then EmptyString :: lines s'
      else match lines s' with
           | [] => [String c EmptyString]
           | l :: ls => String c l :: ls
           end
  end.

(** The [i]-th body line of a rendered diagram, after the header and
    the border. *)
Definition nth_body_line (text : string) (i : nat) : option string :=
  nth_error (lines text) (2 + i).

Fixpoint has_line_feed (s : string) : bool :=
  match s with
  | EmptyString => false
  | String c s' => Ascii.eqb c "010" || has_line_feed s'
  end.

(** [Square(row, col).to_algebraic()]: construction, then the method. *)
Definition square_name (row col : Z) : result string :=
  sq <- Position.new row col ;; Position.to_algebraic sq.

(** [Move(piece, Square(r1, c1), Square(r2, c2)).to_algebraic()]. *)
Definition move_name (piece : Piece.t) (r1 c1 r2 c2 : Z) : result string :=
  src <- Position.new r1 c1 ;;
  dst <- Position.new r2 c2 ;;
  PieceMove.__str__
    {| PieceMove.piece := piece;
       PieceMove.from_position := src;
       PieceMove.to_position := dst |}.

Definition back_rank (c : Piece.Color) : list (option Piece.t) :=
  map (fun k => Some {| Piece.color := c; Piece.type := k |})
      [Piece.rook; Piece.knight; Piece.bishop; Piece.queen;
       Piece.king; Piece.bishop; Piece.knight; Piece.rook].

Definition pawn_rank (c : Piece.Color) : list (option Piece.t) :=
  repeat (Some {| Piece.color := c; Piece.type := Piece.pawn |}) 8.

Definition empty_rank : list (option Piece.t) := repeat None 8.

(** [Board.get(Square(row, col))]. *)
Definition get (b : Chessboard.t) (row col : Z) : result (option Piece.t) :=
  sq <- Position.new row col ;; Chessboard.get_piece b sq.

(** A grid of 7 rows of 8 empty cells. *)
Definition grid_with_7_rows : Chessboard.grid := repeat empty_rank 7.

End Spec.

Import Spec.

(* ================================================================== *)
(** * Vocabulary for reading a diagram back *)
(* ================================================================== *)

Module Diagram.

(** The character a cell is printed as. *)
Definition cell_char (c : option Piece.t) : ascii :=
  match c with
  | None => "."
  | Some p =>
      match Piece.color p, Piece.type p with
      | Piece.black, Piece.pawn => "P"
      | Piece.black, Piece.rook => "R"
      | Piece.black, Piece.knight => "N"
      | Piece.black, Piece.bishop => "B"
      | Piece.black, Piece.queen => "Q"
      | Piece.black, Piece.king => "K"
      | Piece.white, Piece.pawn => "p"
      | Piece.white, Piece.rook => "r"
      | Piece.white, Piece.knight => "n"
      | Piece.white, Piece.bishop => "b"
      | Piece.white, Piece.queen => "q"
      | Piece.white, Piece.king => "k"
      end
  end%char.

(** Where the cell of column [j] stands on a body line: after the rank
    digit and [" | "], every cell takes two characters. *)
Definition cell_offset (j : nat) : nat := 4 + 2 * j.

(** The same move made by a piece of color [c]. *)
Definition with_color (c : Piece.Color) (m : PieceMove.t) : PieceMove.t :=
  {| PieceMove.piece :=
       {| Piece.color := c; Piece.type := Piece.type (PieceMove.piece m) |};
     PieceMove.from_position := PieceMove.from_position m;
     PieceMove.to_position := PieceMove.to_position m |}.

(** What [l[i]] gives for a subscript that is not negative. *)
Definition item {A : Type} (l : list A) (i : Z) : result A :=
  match nth_error l (Z.to_nat i) with
  | Some x => Ok x
  | None => Raise (IndexError "list index out of range")
  end.

(** A grid of 8 rows whose last row has 7 cells. *)
Definition grid_with_short_row : Chessboard.grid :=
  (repeat empty_rank 7 ++ [repeat None 7])%list.

End Diagram.

Import Diagram.

(* ================================================================== *)
(** * Position: construction and algebraic notation *)
(* ================================================================== *)

Ltac split_coordinate H :=
  match type of H with
  | coordinate ?x =>
      let E := fresh "E" in
      assert (E : x = 0 \/ x = 1 \/ x = 2 \/ x = 3 \/
                  x = 4 \/ x = 5 \/ x = 6 \/ x = 7)
        by (unfold coordinate in H; lia);
      clear H;
      repeat (destruct E as [E | E]); subst x
  end.

Lemma Position_new_in_range (row col : Z) :
  coordinate row -> coordinate col ->
  Position.new row col = Ok {| Position.row := row; Position.col := col |}.
Proof.
  unfold coordinate, Position.new, Position.Field. intros Hr Hc.
  destruct (Z.ltb_spec row 0); [lia|].
  destruct (Z.ltb_spec 7 row); [lia|].
  destruct (Z.ltb_spec col 0); [lia|].
  destruct (Z.ltb_spec 7 col); [lia|].
  reflexivity.
Qed.

Lemma Position_new_valid (row col : Z) (p : Position.t) :
  Position.new row col = Ok p ->
  valid_square p /\ Position.row p = row /\ Position.col p = col.
Proof.
  unfold Position.new, Position.Field, valid_square, coordinate.
  destruct (Z.ltb_spec row 0); [discriminate|].
  destruct (Z.ltb_spec 7 row); [discriminate|].
  destruct (Z.ltb_spec col 0); [discriminate|].
  destruct (Z.ltb_spec 7 col); [discriminate|].
  simpl. intros [= <-]. simpl. lia.
Qed.

(** C3. Constructing a Position with a coordinate outside 0..7 raises the
    range error and yields no Position; so do [Position(8, 0)] and
    [Position(0, -1)]. *)
Theorem Position_new_out_of_range :
  (forall row col : Z,
      ~ (coordinate row /\ coordinate col) ->
      (exists e, Position.new row col = Raise e /\ RangeError e) /\
      (forall p, Position.new row col <> Ok p)) /\
  (exists e, Position.new 8 0 = Raise e /\ RangeError e) /\
  (exists e, Position.new 0 (-1) = Raise e /\ RangeError e).
Proof.
  assert (G : forall row col : Z,
             ~ (coordinate row /\ coordinate col) ->
             exists e, Position.new row col = Raise e /\ RangeError e).
  { intros row col H. unfold coordinate in H.
    unfold Position.new, Position.Field, RangeError.
    destruct (Z.ltb_spec row 0); [|destruct (Z.ltb_spec 7 row)];
      (destruct (Z.ltb_spec col 0); [|destruct (Z.ltb_spec 7 col)]);
      try lia;
      simpl; eexists; (split; [reflexivity|]);
      eexists; (split; [reflexivity|]);
      (split; [discriminate|]);
      repeat first [apply Forall_nil | apply Forall_cons; [split; auto|]]. }
  split; [|split].
  - intros row col H. split; [exact (G row col H)|].
    destruct (G row col H) as [e [E _]]. rewrite E. discriminate.
  - apply G. unfold coordinate. lia.
  - apply G. unfold coordinate. lia.
Qed.

Lemma Position_new_out_of_range_witness :
  ~ (coordinate 9 /\ coordinate 3) /\
  (exists e, Position.new 9 3 = Raise e /\ RangeError e) /\
  (forall p, Position.new 9 3 <> Ok p).
Proof.
  assert (H : ~ (coordinate 9 /\ coordinate 3)) by (unfold coordinate; lia).
  split; [exact H|].
  exact (proj1 Position_new_out_of_range 9 3 H).
Defined.

Lemma chr_column (col : Z) :
  coordinate col ->
  chr (col + ord "a") = Ok (String (column_letter col) "").
Proof. intros H. split_coordinate H; reflexivity. Qed.

Lemma str_rank (row : Z) :
  coordinate row ->
  str (8 - row) = String (digit (8 - row)) "".
Proof. intros H. split_coordinate H; reflexivity. Qed.

Lemma to_algebraic_valid (p : Position.t) :
  valid_square p ->
  Position.to_algebraic p = Ok (algebraic (Position.row p) (Position.col p)).
Proof.
  intros [Hr Hc]. unfold Position.to_algebraic.
  rewrite (chr_column _ Hc), (str_rank _ Hr). reflexivity.
Qed.

Lemma square_name_in_range (row col : Z) :
  coordinate row -> coordinate col ->
  square_name row col = Ok (algebraic row col).
Proof.
  intros Hr Hc. unfold square_name.
  rewrite (Position_new_in_range _ _ Hr Hc). simpl.
  apply (to_algebraic_valid {| Position.row := row; Position.col := col |}).
  split; assumption.
Qed.

(** C4. For row and col in 0..7 the algebraic form of the square is the
    column letter, a for column 0 through h for column 7, followed by the
    digit 8 - row; (0,0) is a8, (7,7) is h1 and (7,0) is a1. *)
Theorem square_name_spec :
  (forall row col : Z,
      coordinate row -> coordinate col ->
      square_name row col
      = Ok (String (column_letter col) (String (digit (8 - row)) ""))) /\
  (column_letter 0 = "a"%char /\ column_letter 7 = "h"%char) /\
  square_name 0 0 = Ok "a8" /\
  square_name 7 7 = Ok "h1" /\
  square_name 7 0 = Ok "a1".
Proof.
  split; [exact square_name_in_range|].
  repeat split; reflexivity.
Qed.

Lemma square_name_spec_witness :
  coordinate 3 /\ coordinate 4 /\ square_name 3 4 = Ok "e5".
Proof.
  assert (Hr : coordinate 3) by (unfold coordinate; lia).
  assert (Hc : coordinate 4) by (unfold coordinate; lia).
  split; [exact Hr|]. split; [exact Hc|].
  exact (proj1 square_name_spec 3 4 Hr Hc).
Defined.

Lemma column_letter_inj (c1 c2 : Z) :
  coordinate c1 -> coordinate c2 ->
  column_letter c1 = column_letter c2 -> c1 = c2.
Proof.
  intros H1 H2. split_coordinate H1; split_coordinate H2;
    intros E; solve [reflexivity | discriminate E].
Qed.

Lemma rank_digit_inj (r1 r2 : Z) :
  coordinate r1 -> coordinate r2 ->
  digit (8 - r1) = digit (8 - r2) -> r1 = r2.
Proof.
  intros H1 H2. split_coordinate H1; split_coordinate H2;
    intros E; solve [reflexivity | discriminate E].
Qed.

Lemma algebraic_inj (r1 c1 r2 c2 : Z) :
  coordinate r1 -> coordinate c1 -> coordinate r2 -> coordinate c2 ->
  algebraic r1 c1 = algebraic r2 c2 -> r1 = r2 /\ c1 = c2.
Proof.
  intros Hr1 Hc1 Hr2 Hc2 E. unfold algebraic in E.
  injection E as Ec Er. split.
  - apply rank_digit_inj; assumption.
  - apply column_letter_inj; assumption.
Qed.

Lemma file_char (f : ascii) :
  (97 <= N_of_ascii f <= 104)%N ->
  exists col, coordinate col /\ column_letter col = f.
Proof.
  intros H. exists (Z.of_N (N_of_ascii f) - 97).
  pose proof (ascii_N_embedding f) as Ea. revert H Ea.
  generalize (N_of_ascii f). intros n H Ea. subst f.
  assert (E : (n = 97 \/ n = 98 \/ n = 99 \/ n = 100 \/
               n = 101 \/ n = 102 \/ n = 103 \/ n = 104)%N) by lia.
  clear H. unfold coordinate.
  repeat (destruct E as [E | E]); subst n; (split; [simpl; lia | reflexivity]).
Qed.

Lemma rank_char (r : ascii) :
  (49 <= N_of_ascii r <= 56)%N ->
  exists row, coordinate row /\ digit (8 - row) = r.
Proof.
  intros H. exists (56 - Z.of_N (N_of_ascii r)).
  pose proof (ascii_N_embedding r) as Ea. revert H Ea.
  generalize (N_of_ascii r). intros n H Ea. subst r.
  assert (E : (n = 49 \/ n = 50 \/ n = 51 \/ n = 52 \/
               n = 53 \/ n = 54 \/ n = 55 \/ n = 56)%N) by lia.
  clear H. unfold coordinate.
  repeat (destruct E as [E | E]); subst n; (split; [simpl; lia | reflexivity]).
Qed.

Lemma algebraic_is_square_name (row col : Z) :
  coordinate row -> coordinate col ->
  is_square_name (algebraic row col) = true.
Proof.
  intros Hr Hc. split_coordinate Hr; split_coordinate Hc; reflexivity.
Qed.

(** C5. For row and col in 0..7 the algebraic form matches [[a-h][1-8]];
    distinct coordinate pairs never give the same string, and each of the
    64 strings of that pattern is the form of exactly one pair. *)
Theorem square_name_bijection :
  (forall row col : Z,
      coordinate row -> coordinate col ->
      exists s, square_name row col = Ok s /\ is_square_name s = true) /\
  (forall r1 c1 r2 c2 : Z,
      coordinate r1 -> coordinate c1 -> coordinate r2 -> coordinate c2 ->
      square_name r1 c1 = square_name r2 c2 -> r1 = r2 /\ c1 = c2) /\
  (forall s : string,
      is_square_name s = true ->
      exists row col : Z,
        (coordinate row /\ coordinate col /\ square_name row col = Ok s) /\
        (forall row' col' : Z,
            coordinate row' -> coordinate col' ->
            square_name row' col' = Ok s -> row' = row /\ col' = col)).
Proof.
  assert (Inj : forall r1 c1 r2 c2 : Z,
             coordinate r1 -> coordinate c1 -> coordinate r2 -> coordinate c2 ->
             square_name r1 c1 = square_name r2 c2 -> r1 = r2 /\ c1 = c2).
  { intros r1 c1 r2 c2 Hr1 Hc1 Hr2 Hc2.
    rewrite !square_name_in_range by assumption.
    intros E. apply algebraic_inj; try assumption. congruence. }
  split; [|split; [exact Inj|]].
  - intros row col Hr Hc. exists (algebraic row col). split.
    + apply square_name_in_range; assumption.
    + apply algebraic_is_square_name; assumption.
  - intros s Hs.
    destruct s as [|f [|r [|x s]]]; simpl in Hs; try discriminate Hs.
    apply andb_prop in Hs. destruct Hs as [Hs Hr4].
    apply andb_prop in Hs. destruct Hs as [Hs Hr3].
    apply andb_prop in Hs. destruct Hs as [Hf1 Hf2].
    apply N.leb_le in Hf1, Hf2, Hr3, Hr4.
    destruct (file_char f (conj Hf1 Hf2)) as [col [Hc Ef]].
    destruct (rank_char r (conj Hr3 Hr4)) as [row [Hr Er]].
    assert (Es : square_name row col = Ok (String f (String r ""))).
    { rewrite (square_name_in_range _ _ Hr Hc).
      unfold algebraic. rewrite Ef, Er. reflexivity. }
    exists row, col. split; [auto|].
    intros row' col' Hr' Hc' E'. apply Inj; try assumption.
    rewrite E', Es. reflexivity.
Qed.

Lemma square_name_bijection_witness :
  (coordinate 2 /\ coordinate 5) /\
  exists s, square_name 2 5 = Ok s /\ is_square_name s = true.
Proof.
  assert (Hr : coordinate 2) by (unfold coordinate; lia).
  assert (Hc : coordinate 5) by (unfold coordinate; lia).
  split; [split; assumption|].
  exact (proj1 square_name_bijection 2 5 Hr Hc).
Defined.

(* ================================================================== *)
(** * Piece: the one-letter symbol *)
(* ================================================================== *)

Lemma Piece_str_symbol (p : Piece.t) : Piece.__str__ p = Ok (symbol p).
Proof. destruct p as [[] []]; reflexivity. Qed.

(** C8. The symbol of a piece is the letter of its kind (pawn P, rook R,
    knight N, bishop B, queen Q, king K), upper case for black and lower
    case for white; a white pawn gives p and a black queen gives Q. *)
Theorem Piece_str_spec :
  (forall p : Piece.t, Piece.__str__ p = Ok (symbol p)) /\
  (forall k : Piece.PieceType,
      symbol {| Piece.color := Piece.black; Piece.type := k |}
      = kind_letter k /\
      symbol {| Piece.color := Piece.white; Piece.type := k |}
      = lower (kind_letter k) /\
      upper (kind_letter k) = kind_letter k /\
      lower (kind_letter k) <> kind_letter k /\
      String.length (kind_letter k) = 1%nat) /\
  Piece.__str__ {| Piece.color := Piece.white; Piece.type := Piece.pawn |}
  = Ok "p" /\
  Piece.__str__ {| Piece.color := Piece.black; Piece.type := Piece.queen |}
  = Ok "Q".
Proof.
  split; [exact Piece_str_symbol|].
  split; [|split; reflexivity].
  intros []; repeat split; discriminate.
Qed.

(** C10. Two pieces have the same symbol only if they have the same color
    and the same kind. *)
Theorem Piece_str_injective (p q : Piece.t) :
  Piece.__str__ p = Piece.__str__ q -> p = q.
Proof.
  destruct p as [[] []], q as [[] []]; intros E;
    solve [reflexivity | discriminate E].
Qed.

Lemma Piece_str_injective_witness :
  let p := {| Piece.color := Piece.white; Piece.type := Piece.knight |} in
  let q := {| Piece.color := Piece.white; Piece.type := Piece.knight |} in
  Piece.__str__ p = Piece.__str__ q /\ p = q.
Proof.
  intros p q.
  assert (H : Piece.__str__ p = Piece.__str__ q) by reflexivity.
  split; [exact H|].
  exact (Piece_str_injective p q H).
Defined.

(* ================================================================== *)
(** * PieceMove: the notation of a move *)
(* ================================================================== *)

Lemma PieceMove_str_valid (m : PieceMove.t) :
  valid_square (PieceMove.from_position m) ->
  valid_square (PieceMove.to_position m) ->
  PieceMove.__str__ m
  = Ok (move_letter (PieceMove.piece m)
        ++ algebraic (Position.row (PieceMove.from_position m))
                     (Position.col (PieceMove.from_position m))
        ++ algebraic (Position.row (PieceMove.to_position m))
                     (Position.col (PieceMove.to_position m))).
Proof.
  intros Hf Ht. unfold PieceMove.__str__.
  rewrite Piece_str_symbol, (to_algebraic_valid _ Hf), (to_algebraic_valid _ Ht).
  destruct (PieceMove.piece m) as [[] []]; reflexivity.
Qed.

(** C7. A move renders as the letter of its piece, upper case whatever the
    color and left out for a pawn, then the algebraic form of the source
    square, then that of the destination; a white pawn from (6,4) to (4,4)
    is e2e4 and a black knight from (0,1) to (2,2) is Nb8c6. *)
Theorem PieceMove_str_spec :
  (forall m : PieceMove.t,
      valid_square (PieceMove.from_position m) ->
      valid_square (PieceMove.to_position m) ->
      exists src dst : string,
        Position.to_algebraic (PieceMove.from_position m) = Ok src /\
        Position.to_algebraic (PieceMove.to_position m) = Ok dst /\
        PieceMove.__str__ m
        = Ok ((match Piece.type (PieceMove.piece m) with
               | Piece.pawn => ""
               | k => kind_letter k
               end) ++ src ++ dst)) /\
  move_name {| Piece.color := Piece.white; Piece.type := Piece.pawn |}
            6 4 4 4 = Ok "e2e4" /\
  move_name {| Piece.color := Piece.black; Piece.type := Piece.knight |}
            0 1 2 2 = Ok "Nb8c6".
Proof.
  split; [|split; reflexivity].
  intros m Hf Ht. eexists. eexists.
  split; [apply (to_algebraic_valid _ Hf)|].
  split; [apply (to_algebraic_valid _ Ht)|].
  apply (PieceMove_str_valid m Hf Ht).
Qed.

Lemma PieceMove_str_spec_witness :
  let m := {| PieceMove.piece :=
                {| Piece.color := Piece.white; Piece.type := Piece.queen |};
              PieceMove.from_position := {| Position.row := 7; Position.col := 3 |};
              PieceMove.to_position := {| Position.row := 3; Position.col := 7 |} |} in
  valid_square (PieceMove.from_position m) /\
  valid_square (PieceMove.to_position m) /\
  exists src dst : string,
    Position.to_algebraic (PieceMove.from_position m) = Ok src /\
    Position.to_algebraic (PieceMove.to_position m) = Ok dst /\
    PieceMove.__str__ m = Ok ("Q" ++ src ++ dst).
Proof.
  intros m.
  assert (Hf : valid_square (PieceMove.from_position m))
    by (unfold valid_square, coordinate; simpl; lia).
  assert (Ht : valid_square (PieceMove.to_position m))
    by (unfold valid_square, coordinate; simpl; lia).
  split; [exact Hf|]. split; [exact Ht|].
  exact (proj1 PieceMove_str_spec m Hf Ht).
Defined.

(* ================================================================== *)
(** * Chessboard: construction *)
(* ================================================================== *)

Lemma is_8x8_check (v : Chessboard.grid) :
  is_8x8 v <->
  negb (len v =? 8) || existsb (fun row => negb (len row =? 8)) v = false.
Proof.
  unfold is_8x8, len. rewrite orb_false_iff, negb_false_iff, Z.eqb_eq.
  split; intros [Hl Hr]; (split; [lia|]).
  - clear Hl. induction Hr as [|r v Hr _ IH]; simpl; [reflexivity|].
    rewrite IH, orb_false_r, negb_false_iff, Z.eqb_eq. lia.
  - clear Hl. induction v as [|r v IH]; [constructor|].
    simpl in Hr. rewrite orb_false_iff, negb_false_iff, Z.eqb_eq in Hr.
    destruct Hr as [Hr Hv]. constructor; [lia | exact (IH Hv)].
Qed.

(** The check itself is right: it passes exactly the 8x8 grids. *)
Lemma validate_board_dimensions_spec (v : Chessboard.grid) :
  (is_8x8 v -> Chessboard.validate_board_dimensions v = Ok v) /\
  (~ is_8x8 v ->
   Chessboard.validate_board_dimensions v
   = Raise (ValueError "Chessboard must be 8x8")).
Proof.
  unfold Chessboard.validate_board_dimensions.
  pose proof (is_8x8_check v) as H.
  destruct (negb (len v =? 8) || existsb (fun row => negb (len row =? 8)) v).
  - split; [|reflexivity]. intros G. apply H in G. discriminate G.
  - split; [reflexivity|]. intros G. exfalso. apply G, H. reflexivity.
Qed.

(** Construction never runs the check. *)
Lemma Chessboard_new_total (g : Chessboard.grid) :
  Chessboard.new g = Ok {| Chessboard.board := g |}.
Proof. reflexivity. Qed.

(** C1. A grid of 7 rows is not 8x8 and [validate_board_dimensions] rejects
    it with the dimension error, yet constructing a Chessboard from it
    succeeds and keeps the 7-row grid: construction does not enforce the
    8x8 shape. *)
Theorem Chessboard_new_accepts_7_rows :
  ~ is_8x8 grid_with_7_rows /\
  (exists e, Chessboard.validate_board_dimensions grid_with_7_rows = Raise e /\
             DimensionError e) /\
  Chessboard.new grid_with_7_rows
  = Ok {| Chessboard.board := grid_with_7_rows |}.
Proof.
  split; [|split].
  - intros [Hl _]. discriminate Hl.
  - eexists. split; reflexivity.
  - reflexivity.
Qed.

(** C6. The initial board is the standard setup: row 0 the black back rank
    rook, knight, bishop, queen, king, bishop, knight, rook, row 1 eight
    black pawns, rows 2 to 5 empty, row 6 eight white pawns, row 7 the white
    back rank; (0,4) holds a black king, (7,4) a white king, (3,3) nothing. *)
Theorem create_initial_board_spec :
  exists b : Chessboard.t,
    Chessboard.create_initial_board = Ok b /\
    Chessboard.board b
    = [ back_rank Piece.black; pawn_rank Piece.black;
        empty_rank; empty_rank; empty_rank; empty_rank;
        pawn_rank Piece.white; back_rank Piece.white ] /\
    is_8x8 (Chessboard.board b) /\
    get b 0 4 = Ok (Some {| Piece.color := Piece.black; Piece.type := Piece.king |}) /\
    get b 7 4 = Ok (Some {| Piece.color := Piece.white; Piece.type := Piece.king |}) /\
    get b 3 3 = Ok None.
Proof.
  eexists. split; [reflexivity|].
  split; [reflexivity|].
  split; [|repeat split; reflexivity].
  split; [reflexivity|]. repeat constructor.
Qed.

(* ================================================================== *)
(** * Chessboard: lookup and rendering *)
(* ================================================================== *)

Lemma getitem_in_range {A : Type} (l : list A) (i : Z) :
  0 <= i < len l ->
  exists x, nth_error l (Z.to_nat i) = Some x /\ getitem l i = Ok x.
Proof.
  intros H. unfold getitem, index.
  destruct (Z.ltb_spec i 0); [lia|].
  destruct (Z.ltb_spec i 0); [lia|].
  destruct (Z.leb_spec (len l) i); [lia|]. simpl.
  destruct (nth_error l (Z.to_nat i)) as [x|] eqn:E.
  - exists x. split; reflexivity.
  - apply nth_error_None in E. unfold len in H. lia.
Qed.

Lemma get_piece_in_range (b : Chessboard.t) (p : Position.t) :
  is_8x8 (Chessboard.board b) -> valid_square p ->
  exists r c,
    getitem (Chessboard.board b) (Position.row p) = Ok r /\
    getitem r (Position.col p) = Ok c /\
    Chessboard.get_piece b p = Ok c.
Proof.
  intros [Hl Hr] [Hrow Hcol]. unfold coordinate in *.
  unfold Chessboard.get_piece.
  destruct (getitem_in_range (Chessboard.board b) (Position.row p))
    as [r [Er Gr]]; [unfold len; lia|].
  assert (Lr : List.length r = 8%nat).
  { rewrite Forall_forall in Hr. apply Hr. eapply nth_error_In, Er. }
  destruct (getitem_in_range r (Position.col p))
    as [c [Ec Gc]]; [unfold len; lia|].
  exists r, c. rewrite Gr. simpl. auto.
Qed.

(** Every cell of the diagram is read back without ambiguity. *)
Lemma cell_symbol_injective (c d : option Piece.t) :
  cell_symbol c = cell_symbol d -> c = d.
Proof.
  destruct c as [[[] []]|], d as [[[] []]|]; intros E;
    solve [reflexivity | discriminate E].
Qed.

(** A loop that only appends one item per element collects a [map]. *)
Lemma for_collect {A B : Type}
      (body : list B -> A -> result (list B)) (g : A -> B) (xs : list A) :
  (forall acc x, body acc x = Ok (acc ++ [g x])%list) ->
  forall acc, for_ xs body acc = Ok (acc ++ map g xs)%list.
Proof.
  intros Hb. induction xs as [|x xs IH]; intros acc; simpl.
  - rewrite app_nil_r. reflexivity.
  - rewrite Hb. simpl. rewrite IH, <- app_assoc. reflexivity.
Qed.

Lemma display_line_eq (i : Z) (row : list (option Piece.t)) :
  Chessboard.display_line i row
  = Ok (str (8 - i) ++ " | " ++ join " " (map cell_symbol row) ++ " |").
Proof.
  unfold Chessboard.display_line.
  rewrite (for_collect _ cell_symbol).
  - reflexivity.
  - intros acc [p|]; [rewrite Piece_str_symbol|]; reflexivity.
Qed.

Lemma display_rows_eq (b : Chessboard.t) :
  Chessboard.display_rows b
  = Ok (["  A B C D E F G H"; " +-----------------+"]
        ++ map loop_line (enumerate (reversed (Chessboard.board b)))
        ++ [" +-----------------+"; "  A B C D E F G H"])%list.
Proof.
  unfold Chessboard.display_rows.
  rewrite (for_collect _ loop_line).
  - simpl. rewrite <- !app_assoc. reflexivity.
  - intros acc [i row]. rewrite display_line_eq. reflexivity.
Qed.

(** On a board of 8 rows the loop meets the rows last to first. *)
Lemma display_rows_8 (r0 r1 r2 r3 r4 r5 r6 r7 : list (option Piece.t)) :
  Chessboard.display_rows
    {| Chessboard.board := [r0; r1; r2; r3; r4; r5; r6; r7] |}
  = Ok [ "  A B C D E F G H"; " +-----------------+";
         body_line 8 r7; body_line 7 r6; body_line 6 r5; body_line 5 r4;
         body_line 4 r3; body_line 3 r2; body_line 2 r1; body_line 1 r0;
         " +-----------------+"; "  A B C D E F G H" ].
Proof. rewrite display_rows_eq. reflexivity. Qed.

Lemma has_line_feed_app (s t : string) :
  has_line_feed (s ++ t) = has_line_feed s || has_line_feed t.
Proof.
  induction s as [|c s IH]; simpl; [reflexivity|].
  rewrite IH, orb_assoc. reflexivity.
Qed.

Lemma join_cons (sep x y : string) (l : list string) :
  join sep (x :: y :: l) = x ++ sep ++ join sep (y :: l).
Proof. reflexivity. Qed.

Lemma cells_no_line_feed (cells : list (option Piece.t)) :
  has_line_feed (join " " (map cell_symbol cells)) = false.
Proof.
  induction cells as [|c cells IH]; [reflexivity|].
  assert (Hc : has_line_feed (cell_symbol c) = false)
    by (destruct c as [[[] []]|]; reflexivity).
  cbn [map]. destruct (map cell_symbol cells) as [|x xs]; [exact Hc|].
  rewrite join_cons, !has_line_feed_app, Hc, IH. reflexivity.
Qed.

Lemma body_line_no_line_feed (rank : Z) (cells : list (option Piece.t)) :
  coordinate (rank - 1) ->
  has_line_feed (body_line rank cells) = false.
Proof.
  intros H. unfold body_line.
  rewrite !has_line_feed_app, cells_no_line_feed.
  assert (E : rank - 1 = 0 \/ rank - 1 = 1 \/ rank - 1 = 2 \/ rank - 1 = 3 \/
              rank - 1 = 4 \/ rank - 1 = 5 \/ rank - 1 = 6 \/ rank - 1 = 7)
    by (unfold coordinate in H; lia).
  repeat (destruct E as [E | E]);
    (replace rank with (rank - 1 + 1) by lia); rewrite E; reflexivity.
Qed.

Lemma lines_app (s t : string) :
  has_line_feed s = false ->
  lines (s ++ String "010" t) = s :: lines t.
Proof.
  induction s as [|c s IH]; simpl; [reflexivity|].
  intros H. apply orb_false_iff in H. destruct H as [Hc Hs].
  rewrite Hc, (IH Hs). reflexivity.
Qed.

Lemma lines_single (s : string) :
  has_line_feed s = false -> lines s = [s].
Proof.
  induction s as [|c s IH]; simpl; [reflexivity|].
  intros H. apply orb_false_iff in H. destruct H as [Hc Hs].
  rewrite Hc, (IH Hs). reflexivity.
Qed.

(** Splitting the joined text at its line feeds gives the rows back. *)
Lemma lines_join (rows : list string) :
  rows <> [] ->
  Forall (fun r => has_line_feed r = false) rows ->
  lines (join (String "010" "") rows) = rows.
Proof.
  intros Hne H. induction H as [|r rows Hr Hrows IH]; [contradiction|].
  destruct rows as [|r' rows'].
  - simpl. apply lines_single, Hr.
  - rewrite join_cons. cbn [append].
    rewrite (lines_app _ _ Hr). f_equal.
    apply IH. discriminate.
Qed.

Lemma eight_rows (g : Chessboard.grid) :
  List.length g = 8%nat ->
  exists r0 r1 r2 r3 r4 r5 r6 r7, g = [r0; r1; r2; r3; r4; r5; r6; r7].
Proof.
  intros H.
  destruct g as [|r0 [|r1 [|r2 [|r3 [|r4 [|r5 [|r6 [|r7 [|r8 g]]]]]]]]];
    try discriminate H.
  exists r0, r1, r2, r3, r4, r5, r6, r7. reflexivity.
Qed.

(** The whole diagram of a board of 8 rows, line by line. *)
Lemma display_lines_8 (r0 r1 r2 r3 r4 r5 r6 r7 : list (option Piece.t)) :
  exists text : string,
    Chessboard.display
      {| Chessboard.board := [r0; r1; r2; r3; r4; r5; r6; r7] |} = Ok text /\
    lines text
    = [ "  A B C D E F G H"; " +-----------------+";
        body_line 8 r7; body_line 7 r6; body_line 6 r5; body_line 5 r4;
        body_line 4 r3; body_line 3 r2; body_line 2 r1; body_line 1 r0;
        " +-----------------+"; "  A B C D E F G H" ].
Proof.
  unfold Chessboard.display. rewrite display_rows_8. cbn [bind].
  eexists. split; [reflexivity|].
  apply lines_join; [discriminate|].
  repeat (apply Forall_cons;
          [first [reflexivity
                 | apply body_line_no_line_feed; unfold coordinate; lia]|]).
  apply Forall_nil.
Qed.

(** What the rendering does on every 8x8 board: body line [i] carries the
    label [8 - i] and shows grid row [7 - i]. *)
Lemma display_body_line_reversed (b : Chessboard.t) (i : nat) :
  is_8x8 (Chessboard.board b) -> (i < 8)%nat ->
  exists text : string,
    Chessboard.display b = Ok text /\
    nth_body_line text i
    = Some (body_line (8 - Z.of_nat i) (nth (7 - i) (Chessboard.board b) [])).
Proof.
  intros [Hl _] Hi. destruct b as [g]. simpl in *.
  destruct (eight_rows g Hl) as (r0 & r1 & r2 & r3 & r4 & r5 & r6 & r7 & ->).
  destruct (display_lines_8 r0 r1 r2 r3 r4 r5 r6 r7) as [text [Et El]].
  exists text. split; [exact Et|].
  unfold nth_body_line. rewrite El.
  do 8 (destruct i as [|i]; [reflexivity|]). lia.
Qed.

(** C2. On the initial board the first body line of the diagram, labelled
    8, shows grid row 7 (the white back rank) and not grid row 0 (the black
    back rank, which [to_algebraic] places on rank 8): the diagram prints
    the grid rows last to first under the labels 8 down to 1. *)
Theorem display_prints_last_row_first :
  exists (b : Chessboard.t) (text : string),
    Chessboard.create_initial_board = Ok b /\
    is_8x8 (Chessboard.board b) /\
    Chessboard.display b = Ok text /\
    nth_body_line text 0 = Some "8 | r n b q k b n r |" /\
    body_line 8 (nth 7 (Chessboard.board b) []) = "8 | r n b q k b n r |" /\
    body_line 8 (nth 0 (Chessboard.board b) []) = "8 | R N B Q K B N R |" /\
    nth_body_line text 0
    <> Some (body_line 8 (nth 0 (Chessboard.board b) [])).
Proof.
  eexists. eexists.
  split; [reflexivity|].
  split; [split; [reflexivity | repeat constructor]|].
  split; [reflexivity|].
  split; [reflexivity|].
  split; [reflexivity|].
  split; [reflexivity|].
  discriminate.
Qed.

(** C9. Given a square with coordinates in 0..7 and a board whose grid is
    8x8, the accessors and the rendering return without raising:
    [to_algebraic], [to_tuple], the piece symbol, the move notation,
    [get_piece] (both subscripts in bounds) and [display]. *)
Theorem accessors_total :
  (forall p : Position.t,
      valid_square p -> exists s, Position.to_algebraic p = Ok s) /\
  (forall p : Position.t,
      valid_square p ->
      Position.to_tuple p = (Position.row p, Position.col p)) /\
  (forall pc : Piece.t, exists s, Piece.__str__ pc = Ok s) /\
  (forall m : PieceMove.t,
      valid_square (PieceMove.from_position m) ->
      valid_square (PieceMove.to_position m) ->
      exists s, PieceMove.__str__ m = Ok s) /\
  (forall (b : Chessboard.t) (p : Position.t),
      is_8x8 (Chessboard.board b) -> valid_square p ->
      exists r c,
        getitem (Chessboard.board b) (Position.row p) = Ok r /\
        getitem r (Position.col p) = Ok c /\
        Chessboard.get_piece b p = Ok c) /\
  (forall b : Chessboard.t,
      is_8x8 (Chessboard.board b) ->
      exists s, Chessboard.display b = Ok s).
Proof.
  split; [|split; [|split; [|split; [|split]]]].
  - intros p Hp. eexists. apply (to_algebraic_valid p Hp).
  - intros p _. reflexivity.
  - intros pc. eexists. apply Piece_str_symbol.
  - intros m Hf Ht. eexists. apply (PieceMove_str_valid m Hf Ht).
  - intros b p Hb Hp. exact (get_piece_in_range b p Hb Hp).
  - intros b Hb. unfold Chessboard.display.
    rewrite display_rows_eq. cbn [bind]. eexists. reflexivity.
Qed.

Lemma accessors_total_witness :
  let p := {| Position.row := 6; Position.col := 4 |} in
  let b := {| Chessboard.board :=
                [ back_rank Piece.black; pawn_rank Piece.black;
                  empty_rank; empty_rank; empty_rank; empty_rank;
                  pawn_rank Piece.white; back_rank Piece.white ] |} in
  (valid_square p /\ is_8x8 (Chessboard.board b)) /\
  (exists s, Position.to_algebraic p = Ok s) /\
  (exists r c,
      getitem (Chessboard.board b) (Position.row p) = Ok r /\
      getitem r (Position.col p) = Ok c /\
      Chessboard.get_piece b p = Ok c) /\
  (exists s, Chessboard.display b = Ok s).
Proof.
  intros p b.
  assert (Hp : valid_square p) by (unfold valid_square, coordinate; simpl; lia).
  assert (Hb : is_8x8 (Chessboard.board b))
    by (split; [reflexivity | repeat constructor]).
  split; [split; assumption|].
  split; [exact (proj1 accessors_total p Hp)|].
  split; [exact (proj1 (proj2 (proj2 (proj2 (proj2 accessors_total)))) b p Hb Hp)|].
  exact (proj2 (proj2 (proj2 (proj2 (proj2 accessors_total)))) b Hb).
Defined.

(* ================================================================== *)
(** * Further properties of construction and lookup *)
(* ================================================================== *)

(** X1. Construction and [to_tuple] are inverse to each other: a Position
    that was built holds coordinates in 0..7 and [to_tuple] gives back the
    two arguments, and building from the tuple of a valid Position gives
    that Position again. *)
Theorem Position_new_to_tuple :
  (forall (row col : Z) (p : Position.t),
      Position.new row col = Ok p ->
      valid_square p /\ Position.to_tuple p = (row, col)) /\
  (forall p : Position.t,
      valid_square p ->
      Position.new (fst (Position.to_tuple p)) (snd (Position.to_tuple p))
      = Ok p).
Proof.
  split.
  - intros row col p E.
    destruct (Position_new_valid row col p E) as [Hv [Er Ec]].
    split; [exact Hv|]. unfold Position.to_tuple. rewrite Er, Ec. reflexivity.
  - intros [row col] [Hr Hc]. simpl in *.
    apply Position_new_in_range; assumption.
Qed.

Lemma Position_new_to_tuple_witness :
  let p := {| Position.row := 2; Position.col := 6 |} in
  Position.new 2 6 = Ok p /\
  valid_square p /\ Position.to_tuple p = (2, 6).
Proof.
  intros p.
  assert (E : Position.new 2 6 = Ok p) by reflexivity.
  split; [exact E|].
  exact (proj1 Position_new_to_tuple 2 6 p E).
Defined.

(** X2. [validate_board_dimensions] returns the grid unchanged exactly when
    it has 8 rows of 8 cells each, and raises
    [ValueError('Chessboard must be 8x8')] for every other grid. *)
Theorem validate_board_dimensions_exact (v : Chessboard.grid) :
  (is_8x8 v <-> Chessboard.validate_board_dimensions v = Ok v) /\
  (~ is_8x8 v <->
   Chessboard.validate_board_dimensions v
   = Raise (ValueError "Chessboard must be 8x8")) /\
  (forall v' : Chessboard.grid,
      Chessboard.validate_board_dimensions v = Ok v' -> v' = v).
Proof.
  destruct (validate_board_dimensions_spec v) as [Hok Herr].
  unfold Chessboard.validate_board_dimensions in *.
  pose proof (is_8x8_check v) as H.
  destruct (negb (len v =? 8) || existsb (fun row => negb (len row =? 8)) v).
  - split; [|split].
    + split; [exact Hok | discriminate].
    + split; [reflexivity|]. intros _ G. apply H in G. discriminate G.
    + discriminate.
  - split; [|split].
    + split; [reflexivity|]. intros _. apply H. reflexivity.
    + split; [exact Herr | discriminate].
    + intros v' [= <-]. reflexivity.
Qed.

Lemma validate_board_dimensions_exact_witness :
  ~ is_8x8 grid_with_short_row /\
  List.length grid_with_short_row = 8%nat /\
  Chessboard.validate_board_dimensions grid_with_short_row
  = Raise (ValueError "Chessboard must be 8x8").
Proof.
  assert (H : ~ is_8x8 grid_with_short_row).
  { intros [_ Hr]. rewrite Forall_forall in Hr.
    assert (E : List.length (repeat (@None Piece.t) 7) = 8%nat)
      by (apply Hr; simpl; tauto).
    discriminate E. }
  split; [exact H|]. split; [reflexivity|].
  exact (proj1 (proj1 (proj2 (validate_board_dimensions_exact
                                grid_with_short_row))) H).
Defined.

Lemma getitem_nonnegative {A : Type} (l : list A) (i : Z) :
  0 <= i -> getitem l i = item l i.
Proof.
  intros H. unfold getitem, item, index.
  destruct (Z.ltb_spec i 0); [lia|].
  destruct (Z.ltb_spec i 0); [lia|].
  destruct (Z.leb_spec (len l) i) as [Hge|Hlt]; simpl.
  - assert (E : nth_error l (Z.to_nat i) = None)
      by (apply nth_error_None; unfold len in Hge; lia).
    rewrite E. reflexivity.
  - reflexivity.
Qed.

Lemma get_piece_item (b : Chessboard.t) (p : Position.t) :
  valid_square p ->
  Chessboard.get_piece b p
  = (r <- item (Chessboard.board b) (Position.row p) ;;
     item r (Position.col p)).
Proof.
  intros [Hr Hc]. unfold coordinate in *. unfold Chessboard.get_piece.
  rewrite getitem_nonnegative by lia.
  destruct (item (Chessboard.board b) (Position.row p)); [|reflexivity].
  cbn [bind]. apply getitem_nonnegative. lia.
Qed.

(** X3. On any board, whatever its shape, [get_piece] at a valid square
    returns the cell at that row and column when both exist and raises
    [IndexError] when the row or the cell is missing. *)
Theorem get_piece_any_board (b : Chessboard.t) (p : Position.t) :
  valid_square p ->
  Chessboard.get_piece b p
  = match nth_error (Chessboard.board b) (Z.to_nat (Position.row p)) with
    | None => Raise (IndexError "list index out of range")
    | Some r =>
        match nth_error r (Z.to_nat (Position.col p)) with
        | None => Raise (IndexError "list index out of range")
        | Some c => Ok c
        end
    end.
Proof.
  intros Hp. rewrite (get_piece_item b p Hp). unfold item.
  destruct (nth_error (Chessboard.board b) (Z.to_nat (Position.row p)));
    reflexivity.
Qed.

Lemma get_piece_any_board_witness :
  let b := {| Chessboard.board := grid_with_7_rows |} in
  let p := {| Position.row := 7; Position.col := 0 |} in
  valid_square p /\
  Chessboard.new grid_with_7_rows = Ok b /\
  Chessboard.get_piece b p = Raise (IndexError "list index out of range").
Proof.
  intros b p.
  assert (Hp : valid_square p) by (unfold valid_square, coordinate; simpl; lia).
  split; [exact Hp|]. split; [reflexivity|].
  exact (get_piece_any_board b p Hp).
Defined.

(* ================================================================== *)
(** * Further properties of the move notation *)
(* ================================================================== *)

(** X4. The notation of a move does not depend on the color of the piece:
    the same move made by a white and by a black piece renders alike,
    whatever the squares. *)
Theorem PieceMove_str_ignores_color (m : PieceMove.t) (c : Piece.Color) :
  PieceMove.__str__ (with_color c m) = PieceMove.__str__ m.
Proof.
  destruct m as [[col k] src dst]. unfold with_color, PieceMove.__str__.
  cbn [PieceMove.piece PieceMove.from_position PieceMove.to_position
       Piece.type].
  destruct c, col, k; reflexivity.
Qed.

Lemma algebraic_eq_inv (p q : Position.t) :
  valid_square p -> valid_square q ->
  algebraic (Position.row p) (Position.col p)
  = algebraic (Position.row q) (Position.col q) ->
  p = q.
Proof.
  intros [Hpr Hpc] [Hqr Hqc] E. destruct p as [r c], q as [r' c'].
  simpl in *. destruct (algebraic_inj r c r' c' Hpr Hpc Hqr Hqc E) as [-> ->].
  reflexivity.
Qed.

(** X5. Between moves on valid squares the notation is 4 characters long
    for a pawn and 5 for any other piece, and two moves with the same
    notation have the same kind of piece, the same source square and the
    same destination square. *)
Theorem PieceMove_str_determines_move (m1 m2 : PieceMove.t) :
  valid_square (PieceMove.from_position m1) ->
  valid_square (PieceMove.to_position m1) ->
  valid_square (PieceMove.from_position m2) ->
  valid_square (PieceMove.to_position m2) ->
  (exists s,
      PieceMove.__str__ m1 = Ok s /\
      String.length s
      = match Piece.type (PieceMove.piece m1) with
        | Piece.pawn => 4%nat
        | _ => 5%nat
        end) /\
  (PieceMove.__str__ m1 = PieceMove.__str__ m2 ->
   Piece.type (PieceMove.piece m1) = Piece.type (PieceMove.piece m2) /\
   PieceMove.from_position m1 = PieceMove.from_position m2 /\
   PieceMove.to_position m1 = PieceMove.to_position m2).
Proof.
  intros Hf1 Ht1 Hf2 Ht2.
  rewrite (PieceMove_str_valid m1 Hf1 Ht1), (PieceMove_str_valid m2 Hf2 Ht2).
  split.
  - eexists. split; [reflexivity|].
    unfold move_letter, algebraic.
    destruct (Piece.type (PieceMove.piece m1)); reflexivity.
  - unfold move_letter.
    destruct (Piece.type (PieceMove.piece m1)),
             (Piece.type (PieceMove.piece m2));
      unfold algebraic; cbn [kind_letter append]; intros E;
      try discriminate E;
      (split; [reflexivity|]);
      (split; apply algebraic_eq_inv; try assumption;
       unfold algebraic; congruence).
Qed.

Lemma PieceMove_str_determines_move_witness :
  let m1 := {| PieceMove.piece :=
                 {| Piece.color := Piece.white; Piece.type := Piece.rook |};
               PieceMove.from_position := {| Position.row := 7; Position.col := 0 |};
               PieceMove.to_position := {| Position.row := 4; Position.col := 0 |} |} in
  let m2 := with_color Piece.black m1 in
  (valid_square (PieceMove.from_position m1) /\
   valid_square (PieceMove.to_position m1) /\
   PieceMove.__str__ m1 = PieceMove.__str__ m2) /\
  Piece.type (PieceMove.piece m1) = Piece.type (PieceMove.piece m2) /\
  PieceMove.from_position m1 = PieceMove.from_position m2 /\
  PieceMove.to_position m1 = PieceMove.to_position m2.
Proof.
  intros m1 m2.
  assert (Hf : valid_square (PieceMove.from_position m1))
    by (unfold valid_square, coordinate; simpl; lia).
  assert (Ht : valid_square (PieceMove.to_position m1))
    by (unfold valid_square, coordinate; simpl; lia).
  assert (E : PieceMove.__str__ m1 = PieceMove.__str__ m2) by reflexivity.
  split; [split; [exact Hf | split; [exact Ht | exact E]]|].
  exact (proj2 (PieceMove_str_determines_move m1 m2 Hf Ht Hf Ht) E).
Defined.

(* ================================================================== *)
(** * Further properties of the diagram *)
(* ================================================================== *)

Lemma uint_no_line_feed (d : Decimal.uint) :
  has_line_feed (NilEmpty.string_of_uint d) = false.
Proof. induction d; simpl; auto. Qed.

Lemma str_no_line_feed (i : Z) : has_line_feed (str i) = false.
Proof.
  unfold str.
  destruct (Z.to_int i) as [d|d]; simpl;
    destruct d; simpl; auto using uint_no_line_feed.
Qed.

Lemma loop_line_no_line_feed (ir : Z * list (option Piece.t)) :
  has_line_feed (loop_line ir) = false.
Proof.
  unfold loop_line.
  rewrite !has_line_feed_app, str_no_line_feed, cells_no_line_feed.
  reflexivity.
Qed.

Lemma nth_error_enumerate_from {A : Type} (l : list A) (k i : nat) (x : A) :
  nth_error l i = Some x ->
  nth_error (combine (map Z.of_nat (seq k (List.length l))) l) i
  = Some (Z.of_nat (k + i), x).
Proof.
  revert k i. induction l as [|a l IH]; intros k [|i] H; simpl in *;
    try discriminate H.
  - injection H as ->. rewrite Nat.add_0_r. reflexivity.
  - rewrite (IH (S k) i H). do 2 f_equal. lia.
Qed.

Lemma nth_error_enumerate {A : Type} (l : list A) (i : nat) (x : A) :
  nth_error l i = Some x ->
  nth_error (enumerate l) i = Some (Z.of_nat i, x).
Proof.
  intros H. unfold enumerate, range, len. rewrite Nat2Z.id.
  apply (nth_error_enumerate_from l 0 i x H).
Qed.

Lemma enumerate_length {A : Type} (l : list A) :
  List.length (enumerate l) = List.length l.
Proof.
  unfold enumerate, range, len.
  rewrite Nat2Z.id, length_combine, length_map, length_seq. lia.
Qed.

(** The rows of the diagram of any board, and the text split back. *)
Lemma display_lines_any (b : Chessboard.t) :
  exists text : string,
    Chessboard.display b = Ok text /\
    lines text
    = (["  A B C D E F G H"; " +-----------------+"]
       ++ map loop_line (enumerate (reversed (Chessboard.board b)))
       ++ [" +-----------------+"; "  A B C D E F G H"])%list.
Proof.
  unfold Chessboard.display. rewrite display_rows_eq. cbn [bind].
  eexists. split; [reflexivity|].
  apply lines_join; [discriminate|].
  apply Forall_app. split; [repeat constructor|].
  apply Forall_app. split; [|repeat constructor].
  apply Forall_forall. intros s Hs. apply in_map_iff in Hs.
  destruct Hs as [ir [<- _]]. apply loop_line_no_line_feed.
Qed.

(** X6. [display] returns a text for every grid, whatever its shape: the
    header and the border, one body line per row, the border and the
    header again.  With n rows, body line i carries the label 8 - i and the
    cells of row n - 1 - i. *)
Theorem display_any_board (b : Chessboard.t) :
  exists text : string,
    Chessboard.display b = Ok text /\
    List.length (lines text) = (List.length (Chessboard.board b) + 4)%nat /\
    nth_error (lines text) 0 = Some "  A B C D E F G H" /\
    nth_error (lines text) 1 = Some " +-----------------+" /\
    (forall i : nat,
        (i < List.length (Chessboard.board b))%nat ->
        nth_body_line text i
        = Some (str (8 - Z.of_nat i) ++ " | "
                ++ join " "
                     (map cell_symbol
                          (nth (List.length (Chessboard.board b) - 1 - i)
                               (Chessboard.board b) []))
                ++ " |")) /\
    nth_error (lines text) (List.length (Chessboard.board b) + 2)
    = Some " +-----------------+" /\
    nth_error (lines text) (List.length (Chessboard.board b) + 3)
    = Some "  A B C D E F G H".
Proof.
  destruct (display_lines_any b) as [text [Et El]].
  exists text. split; [exact Et|]. unfold nth_body_line.
  rewrite El. clear Et El text.
  set (g := Chessboard.board b).
  set (body := map loop_line (enumerate (reversed g))).
  assert (Lb : List.length body = List.length g).
  { unfold body, reversed.
    rewrite length_map, enumerate_length, length_rev. reflexivity. }
  split; [|split; [reflexivity|split; [reflexivity|split; [|split]]]].
  - cbn [app List.length]. rewrite length_app, Lb. simpl. lia.
  - intros i Hi. cbn [app Nat.add nth_error].
    rewrite nth_error_app1 by lia.
    unfold body. rewrite nth_error_map.
    assert (E : nth_error (reversed g) i
                = Some (nth (List.length g - 1 - i) g [])).
    { unfold reversed.
      rewrite (nth_error_nth' (rev g) []) by (rewrite length_rev; lia).
      rewrite rev_nth by lia. do 2 f_equal. lia. }
    rewrite (nth_error_enumerate _ _ _ E). reflexivity.
  - rewrite nth_error_app2 by (simpl; lia).
    rewrite nth_error_app2 by (simpl; lia).
    replace (List.length g + 2
             - List.length ["  A B C D E F G H"; " +-----------------+"]
             - List.length body)%nat with 0%nat by (simpl; lia).
    reflexivity.
  - rewrite nth_error_app2 by (simpl; lia).
    rewrite nth_error_app2 by (simpl; lia).
    replace (List.length g + 3
             - List.length ["  A B C D E F G H"; " +-----------------+"]
             - List.length body)%nat with 1%nat by (simpl; lia).
    reflexivity.
Qed.

Lemma display_any_board_witness :
  let b := {| Chessboard.board := grid_with_7_rows |} in
  (0 < List.length (Chessboard.board b))%nat /\
  exists text : string,
    Chessboard.display b = Ok text /\
    List.length (lines text) = 11%nat /\
    nth_body_line text 0 = Some "8 | . . . . . . . . |".
Proof.
  intros b.
  assert (H : (0 < List.length (Chessboard.board b))%nat) by (simpl; lia).
  split; [exact H|].
  destruct (display_any_board b) as [text [Et [Ll [_ [_ [Hb _]]]]]].
  exists text. split; [exact Et|]. split; [exact Ll|].
  exact (Hb 0%nat H).
Defined.

Lemma cell_symbol_char (c : option Piece.t) :
  cell_symbol c = String (cell_char c) "".
Proof. destruct c as [[[] []]|]; reflexivity. Qed.

Lemma cell_char_injective (c d : option Piece.t) :
  cell_char c = cell_char d -> c = d.
Proof.
  intros E. apply cell_symbol_injective.
  rewrite !cell_symbol_char, E. reflexivity.
Qed.

Lemma cell_char_not_space (c : option Piece.t) : cell_char c <> " "%char.
Proof. destruct c as [[[] []]|]; discriminate. Qed.

Lemma cell_char_not_bar (c : option Piece.t) : cell_char c <> "|"%char.
Proof. destruct c as [[[] []]|]; discriminate. Qed.

(** The cells of a row followed by [t], one character at a time. *)
Lemma join_cells_one (c : option Piece.t) (t : string) :
  join " " (map cell_symbol [c]) ++ t = String (cell_char c) t.
Proof. cbn [map join String.concat]. rewrite cell_symbol_char. reflexivity. Qed.

Lemma join_cells_cons (c c' : option Piece.t) (r : list (option Piece.t))
      (t : string) :
  join " " (map cell_symbol (c :: c' :: r)) ++ t
  = String (cell_char c)
           (String " " (join " " (map cell_symbol (c' :: r)) ++ t)).
Proof.
  cbn [map]. rewrite join_cons, cell_symbol_char. cbn [append].
  reflexivity.
Qed.

Lemma cells_length (row : list (option Piece.t)) (t : string) :
  row <> [] ->
  String.length (join " " (map cell_symbol row) ++ t)
  = (2 * List.length row - 1 + String.length t)%nat.
Proof.
  induction row as [|c row IH]; [contradiction|]. intros _.
  destruct row as [|c' row].
  - rewrite join_cells_one. reflexivity.
  - rewrite join_cells_cons. cbn [String.length].
    rewrite IH by discriminate. cbn [List.length]. lia.
Qed.

Lemma cells_substring (row : list (option Piece.t)) (t : string)
      (j : nat) (c : option Piece.t) :
  nth_error row j = Some c ->
  substring (2 * j) 1 (join " " (map cell_symbol row) ++ t) = cell_symbol c.
Proof.
  revert j. induction row as [|c0 row IH]; intros j H.
  - destruct j; discriminate H.
  - destruct row as [|c1 row].
    + destruct j as [|[|j]]; try discriminate H.
      injection H as ->. rewrite join_cells_one, cell_symbol_char.
      destruct t; reflexivity.
    + rewrite join_cells_cons. destruct j as [|j].
      * injection H as ->. rewrite cell_symbol_char. reflexivity.
      * replace (2 * S j)%nat with (S (S (2 * j))) by lia.
        cbn [substring]. apply IH. exact H.
Qed.

Lemma body_line_length (rank : Z) (row : list (option Piece.t)) :
  List.length row = 8%nat -> String.length (body_line rank row) = 21%nat.
Proof.
  intros H. unfold body_line. cbn [append String.length].
  rewrite cells_length by (intros ->; discriminate H).
  rewrite H. reflexivity.
Qed.

Lemma body_line_substring (rank : Z) (row : list (option Piece.t))
      (j : nat) (c : option Piece.t) :
  nth_error row j = Some c ->
  substring (cell_offset j) 1 (body_line rank row) = cell_symbol c.
Proof.
  intros H. unfold body_line, cell_offset. cbn [append Nat.add substring].
  apply cells_substring, H.
Qed.

(** X7. On an 8x8 board every body line of the diagram is 21 characters
    long, and the character for column j on body line i is the symbol of
    the cell that [get_piece] returns for the square (7 - i, j). *)
Theorem display_cell_is_get_piece (b : Chessboard.t) (i j : nat) :
  is_8x8 (Chessboard.board b) -> (i < 8)%nat -> (j < 8)%nat ->
  exists (text line : string) (c : option Piece.t),
    Chessboard.display b = Ok text /\
    nth_body_line text i = Some line /\
    String.length line = 21%nat /\
    get b (7 - Z.of_nat i) (Z.of_nat j) = Ok c /\
    substring (cell_offset j) 1 line = cell_symbol c.
Proof.
  intros Hb Hi Hj.
  destruct (display_body_line_reversed b i Hb Hi) as [text [Et El]].
  assert (Hr : coordinate (7 - Z.of_nat i)) by (unfold coordinate; lia).
  assert (Hc : coordinate (Z.of_nat j)) by (unfold coordinate; lia).
  set (p := {| Position.row := 7 - Z.of_nat i; Position.col := Z.of_nat j |}).
  assert (Hp : valid_square p) by (split; assumption).
  destruct (get_piece_in_range b p Hb Hp) as [r [c [Gr [Gc Gp]]]].
  unfold p in Gr, Gc. cbn [Position.row Position.col] in Gr, Gc.
  rewrite getitem_nonnegative in Gr by lia.
  rewrite getitem_nonnegative in Gc by lia.
  unfold item in Gr, Gc.
  replace (Z.to_nat (7 - Z.of_nat i)) with (7 - i)%nat in Gr by lia.
  rewrite Nat2Z.id in Gc.
  destruct (nth_error (Chessboard.board b) (7 - i)) as [r'|] eqn:Er;
    [|discriminate Gr].
  injection Gr as ->.
  destruct (nth_error r j) as [c'|] eqn:Ec; [|discriminate Gc].
  injection Gc as ->.
  rewrite (nth_error_nth _ _ [] Er) in El.
  assert (Lr : List.length r = 8%nat).
  { destruct Hb as [_ Hrows]. rewrite Forall_forall in Hrows.
    apply Hrows. eapply nth_error_In, Er. }
  exists text, (body_line (8 - Z.of_nat i) r), c.
  split; [exact Et|]. split; [exact El|].
  split; [apply body_line_length, Lr|].
  split.
  - unfold get. rewrite (Position_new_in_range _ _ Hr Hc). exact Gp.
  - apply body_line_substring, Ec.
Qed.

Lemma display_cell_is_get_piece_witness :
  let b := {| Chessboard.board :=
                [ back_rank Piece.black; pawn_rank Piece.black;
                  empty_rank; empty_rank; empty_rank; empty_rank;
                  pawn_rank Piece.white; back_rank Piece.white ] |} in
  (is_8x8 (Chessboard.board b) /\ (0 < 8)%nat /\ (4 < 8)%nat) /\
  exists (text line : string) (c : option Piece.t),
    Chessboard.display b = Ok text /\
    nth_body_line text 0 = Some line /\
    String.length line = 21%nat /\
    get b 7 4 = Ok c /\
    substring 12 1 line = cell_symbol c.
Proof.
  intros b.
  assert (Hb : is_8x8 (Chessboard.board b))
    by (split; [reflexivity | repeat constructor]).
  assert (Hi : (0 < 8)%nat) by lia.
  assert (Hj : (4 < 8)%nat) by lia.
  split; [split; [exact Hb | split; [exact Hi | exact Hj]]|].
  exact (display_cell_is_get_piece b 0 4 Hb Hi Hj).
Defined.

Lemma append_inv_head (s a b : string) : s ++ a = s ++ b -> a = b.
Proof.
  induction s as [|c s IH]; simpl; intros E; [exact E|].
  apply IH. congruence.
Qed.

(** A row is read back from its cells and the closing [" |"]. *)
Lemma cells_injective (r1 r2 : list (option Piece.t)) :
  join " " (map cell_symbol r1) ++ " |" = join " " (map cell_symbol r2) ++ " |" ->
  r1 = r2.
Proof.
  revert r2. induction r1 as [|c1 r1 IH]; intros [|c2 r2] E.
  - reflexivity.
  - exfalso. apply (cell_char_not_space c2).
    change (join " " (map cell_symbol []) ++ " |") with " |" in E.
    destruct r2 as [|c2' r2];
      [rewrite join_cells_one in E | rewrite join_cells_cons in E];
      congruence.
  - exfalso. apply (cell_char_not_space c1).
    change (join " " (map cell_symbol []) ++ " |") with " |" in E.
    destruct r1 as [|c1' r1];
      [rewrite join_cells_one in E | rewrite join_cells_cons in E];
      congruence.
  - destruct r1 as [|c1' r1], r2 as [|c2' r2].
    + rewrite !join_cells_one in E. f_equal.
      apply cell_char_injective. congruence.
    + exfalso. apply (cell_char_not_bar c2').
      rewrite join_cells_one, join_cells_cons in E.
      destruct r2 as [|c2'' r2];
        [rewrite join_cells_one in E | rewrite join_cells_cons in E];
        congruence.
    + exfalso. apply (cell_char_not_bar c1').
      rewrite join_cells_one, join_cells_cons in E.
      destruct r1 as [|c1'' r1];
        [rewrite join_cells_one in E | rewrite join_cells_cons in E];
        congruence.
    + rewrite !join_cells_cons in E.
      assert (Ec : cell_char c1 = cell_char c2) by congruence.
      assert (Et : join " " (map cell_symbol (c1' :: r1)) ++ " |"
                   = join " " (map cell_symbol (c2' :: r2)) ++ " |")
        by congruence.
      rewrite (cell_char_injective _ _ Ec), (IH _ Et). reflexivity.
Qed.

Lemma loop_line_injective (i : Z) (r1 r2 : list (option Piece.t)) :
  loop_line (i, r1) = loop_line (i, r2) -> r1 = r2.
Proof.
  unfold loop_line. cbn [fst snd]. intros E.
  apply append_inv_head in E. apply (append_inv_head " | ") in E.
  apply cells_injective, E.
Qed.

Lemma enumerate_lines_injective (l1 l2 : Chessboard.grid) (k : nat) :
  map loop_line (combine (map Z.of_nat (seq k (List.length l1))) l1)
  = map loop_line (combine (map Z.of_nat (seq k (List.length l2))) l2) ->
  l1 = l2.
Proof.
  revert l2 k. induction l1 as [|r1 l1 IH]; intros [|r2 l2] k E;
    simpl in E; try discriminate E; [reflexivity|].
  injection E as Eh Et.
  rewrite (loop_line_injective _ _ _ Eh), (IH _ _ Et). reflexivity.
Qed.

(** X8. The diagram determines the board: two boards, of any shape, that
    [display] renders to the same text hold the same grid. *)
Theorem display_injective (b1 b2 : Chessboard.t) :
  Chessboard.display b1 = Chessboard.display b2 -> b1 = b2.
Proof.
  intros E.
  destruct (display_lines_any b1) as [t1 [E1 L1]].
  destruct (display_lines_any b2) as [t2 [E2 L2]].
  assert (Et : t1 = t2) by congruence. subst t2.
  rewrite L1 in L2. apply app_inv_head, app_inv_tail in L2.
  unfold enumerate, range, len in L2. rewrite !Nat2Z.id in L2.
  apply enumerate_lines_injective in L2.
  unfold reversed in L2.
  destruct b1 as [g1], b2 as [g2]. simpl in L2. f_equal.
  rewrite <- (rev_involutive g1), <- (rev_involutive g2), L2. reflexivity.
Qed.

Lemma display_injective_witness :
  let b1 := {| Chessboard.board := grid_with_7_rows |} in
  let b2 := {| Chessboard.board := mul [empty_rank] 7 |} in
  Chessboard.display b1 = Chessboard.display b2 /\ b1 = b2.
Proof.
  intros b1 b2.
  assert (E : Chessboard.display b1 = Chessboard.display b2) by reflexivity.
  split; [exact E|].
  exact (display_injective b1 b2 E).
Defined.
